(** * The view-state controller of frontend-web/src/App.js

    The React component [App] keeps six pieces of state, reads and
    writes [localStorage], and calls three functions of
    [./services/api].  Its handlers are embedded below as programs of
    a small monad with exceptions and [await]; a program runs on a
    [World] made of the component state, the [localStorage] contents
    and the trace of calls that left the component. *)

From stdpp Require Import gmap strings.

Open Scope string_scope.

(** ** Data *)

(** A dataset; the component reads [currentDataset.id] and
    [currentDataset.raw_data_parsed] and nothing else. *)
Record Dataset : Type := mkDataset {
  id : string;
  raw_data_parsed : list (list string)
}.

(** The user object; the component reads [user?.username]. *)
Record UserRecord : Type := mkUserRecord {
  username : string
}.

(** The argument of [handleUploadSuccess]: an object with a [dataset]
    property, which may be null. *)
Record UploadResponse : Type := mkUploadResponse {
  dataset : option Dataset
}.

(** The values given to [setActiveTab]. *)
Inductive Tab : Type := upload | summary | table | charts | history | login.

(** A thrown value, as far as the component looks at it:
    [err.response?.status]. *)
Record HttpResponse : Type := mkHttpResponse {
  status : Z
}.

Record JSError : Type := mkJSError {
  message : string;
  response : option HttpResponse
}.

(** The [useState] cells of [App], with [null] as [None]. *)
Record AppState : Type := mkAppState {
  currentDataset : option Dataset;
  loading : bool;
  error : option string;
  isAuthenticated : bool;
  user : option UserRecord;
  activeTab : Tab
}.

(** The functions imported from [./services/api]. *)
Inductive Call : Type :=
| getLatestDataset
| logout
| downloadPDF (dataset_id : string).

(** How the promise of a call settles: with a value ([data], which the
    component keeps only for [getLatestDataset]) or with a thrown
    error. *)
Inductive Reply : Type :=
| Resolve (data : option Dataset)
| Reject (err : JSError).

(** What leaves the component, in the order it happens. *)
Inductive Effect : Type :=
| Dispatched (c : Call)
| ConsoleError (msg : string) (err : JSError).

Record World : Type := mkWorld {
  state : AppState;
  localStorage : gmap string string;
  trace : list Effect
}.

(** The values of [useState(...)] at the first render. *)
Definition initial_state : AppState :=
  {| currentDataset := None; loading := false; error := None;
     isAuthenticated := false; user := None; activeTab := upload |}.

(** ** Programs *)

(** A handler body: it returns, throws, reads the world, changes it,
    or awaits the promise of an api call. *)
Inductive Prog (A : Type) : Type :=
| Ret (a : A)
| Throw (e : JSError)
| Get (k : World -> Prog A)
| Upd (f : World -> World) (k : Prog A)
| Await (c : Call) (k : Reply -> Prog A).

Arguments Ret {A} a.
Arguments Throw {A} e.
Arguments Get {A} k.
Arguments Upd {A} f k.
Arguments Await {A} c k.

Fixpoint bind {A B : Type} (p : Prog A) (f : A -> Prog B) : Prog B :=
  match p with
  | Ret a => f a
  | Throw e => Throw e
  | Get k => Get (fun w => bind (k w) f)
  | Upd g k => Upd g (bind k f)
  | Await c k => Await c (fun r => bind (k r) f)
  end.

Notation "x <- p ;; q" := (bind p (fun x => q))
  (at level 100, p at next level, right associativity).
Notation "p ;; q" := (bind p (fun _ => q))
  (at level 100, right associativity).

(** [try { body } catch (err) { handler err }] *)
Fixpoint try_catch {A : Type} (body : Prog A) (handler : JSError -> Prog A)
  : Prog A :=
  match body with
  | Ret a => Ret a
  | Throw e => handler e
  | Get k => Get (fun w => try_catch (k w) handler)
  | Upd g k => Upd g (try_catch k handler)
  | Await c k => Await c (fun r => try_catch (k r) handler)
  end.

(** [try { body } finally { cleanup }]: the cleanup runs on both exits
    and the exit of the body is kept, unless the cleanup throws. *)
Fixpoint try_finally {A : Type} (body : Prog A) (cleanup : Prog unit)
  : Prog A :=
  match body with
  | Ret a => cleanup ;; Ret a
  | Throw e => cleanup ;; Throw e
  | Get k => Get (fun w => try_finally (k w) cleanup)
  | Upd g k => Upd g (try_finally k cleanup)
  | Await c k => Await c (fun r => try_finally (k r) cleanup)
  end.

Definition try_catch_finally {A : Type} (body : Prog A)
    (handler : JSError -> Prog A) (cleanup : Prog unit) : Prog A :=
  try_finally (try_catch body handler) cleanup.

(** [await c]: the value of the promise, or its error thrown. *)
Definition await (c : Call) : Prog (option Dataset) :=
  Await c (fun r =>
    match r with
    | Resolve data => Ret data
    | Reject err => Throw err
    end).

(** The six record updates behind the state setters. *)
Definition with_currentDataset (v : option Dataset) (s : AppState) : AppState :=
  {| currentDataset := v; loading := loading s; error := error s;
     isAuthenticated := isAuthenticated s; user := user s;
     activeTab := activeTab s |}.

Definition with_loading (v : bool) (s : AppState) : AppState :=
  {| currentDataset := currentDataset s; loading := v; error := error s;
     isAuthenticated := isAuthenticated s; user := user s;
     activeTab := activeTab s |}.

Definition with_error (v : option string) (s : AppState) : AppState :=
  {| currentDataset := currentDataset s; loading := loading s; error := v;
     isAuthenticated := isAuthenticated s; user := user s;
     activeTab := activeTab s |}.

Definition with_isAuthenticated (v : bool) (s : AppState) : AppState :=
  {| currentDataset := currentDataset s; loading := loading s;
     error := error s; isAuthenticated := v; user := user s;
     activeTab := activeTab s |}.

Definition with_user (v : option UserRecord) (s : AppState) : AppState :=
  {| currentDataset := currentDataset s; loading := loading s;
     error := error s; isAuthenticated := isAuthenticated s; user := v;
     activeTab := activeTab s |}.

Definition with_activeTab (v : Tab) (s : AppState) : AppState :=
  {| currentDataset := currentDataset s; loading := loading s;
     error := error s; isAuthenticated := isAuthenticated s;
     user := user s; activeTab := v |}.

(** State setters and the other primitives the handlers use. *)
Definition set_state (f : AppState -> AppState) : Prog unit :=
  Upd (fun w => {| state := f (state w);
                   localStorage := localStorage w;
                   trace := trace w |}) (Ret tt).

Definition setCurrentDataset (v : option Dataset) : Prog unit :=
  set_state (with_currentDataset v).

Definition setLoading (v : bool) : Prog unit :=
  set_state (with_loading v).

Definition setError (v : option string) : Prog unit :=
  set_state (with_error v).

Definition setIsAuthenticated (v : bool) : Prog unit :=
  set_state (with_isAuthenticated v).

Definition setUser (v : option UserRecord) : Prog unit :=
  set_state (with_user v).

Definition setActiveTab (v : Tab) : Prog unit :=
  set_state (with_activeTab v).

(** Reading a state cell in the handler's closure. *)
Definition read {A : Type} (cell : AppState -> A) : Prog A :=
  Get (fun w => Ret (cell (state w))).

Definition localStorage_getItem (key : string) : Prog (option string) :=
  Get (fun w => Ret (localStorage w !! key)).

Definition localStorage_setItem (key value : string) : Prog unit :=
  Upd (fun w => {| state := state w;
                   localStorage := <[key := value]> (localStorage w);
                   trace := trace w |}) (Ret tt).

Definition emit (e : Effect) (w : World) : World :=
  {| state := state w; localStorage := localStorage w;
     trace := trace w ++ [e] |}.

Definition console_error (msg : string) (err : JSError) : Prog unit :=
  Upd (emit (ConsoleError msg err)) (Ret tt).

(** JavaScript truthiness of what [getItem] returns: [null] and the
    empty string are falsy. *)
Definition truthy (v : option string) : bool :=
  match v with
  | Some s => negb (String.eqb s "")
  | None => false
  end.

(** [String(v)] for what [getItem] returns. *)
Definition ToString (v : option string) : string :=
  match v with
  | Some s => s
  | None => "null"
  end.

(** [err.response?.status !== 404] *)
Definition status_is_not_404 (err : JSError) : bool :=
  match response err with
  | Some r => negb (Z.eqb (status r) 404)
  | None => true
  end.

(** ** Running a program *)

(** The promise an async handler returns. *)
Inductive Outcome (A : Type) : Type :=
| Fulfilled (a : A)
| Rejected (e : JSError).

Arguments Fulfilled {A} a.
Arguments Rejected {A} e.

(** A handler after its synchronous part: finished, or waiting for the
    reply to the call it has dispatched. *)
Inductive Pending (A : Type) : Type :=
| Settled (o : Outcome A)
| Suspended (c : Call) (k : Reply -> Prog A).

Arguments Settled {A} o.
Arguments Suspended {A} c k.

(** Modelled from the spec: the bodies of [getLatestDataset], [logout]
    and [downloadPDF] in services/api are missing.  The spec says of
    the session store that it is mutated only by [loginSucceeded]
    (write) and [logout] (clear), and [App] itself never removes an
    item, so the clearing is what the [logout] call does to the store;
    the two dataset calls leave the store alone. *)
Definition api_store_effect (c : Call) (ls : gmap string string)
  : gmap string string :=
  match c with
  | logout => delete "user" (delete "authToken" ls)
  | getLatestDataset => ls
  | downloadPDF _ => ls
  end.

Definition completes (c : Call) (w : World) : World :=
  {| state := state w;
     localStorage := api_store_effect c (localStorage w);
     trace := trace w |}.

(** The synchronous part: up to the first [await], whose call is
    dispatched before the handler is suspended. *)
Fixpoint start {A : Type} (p : Prog A) (w : World) : World * Pending A :=
  match p with
  | Ret a => (w, Settled (Fulfilled a))
  | Throw e => (w, Settled (Rejected e))
  | Get k => start (k w) w
  | Upd f k => start k (f w)
  | Await c k => (emit (Dispatched c) w, Suspended c k)
  end.

(** The reply to the pending call arrives. *)
Definition resume {A : Type} (c : Call) (k : Reply -> Prog A) (r : Reply)
    (w : World) : World * Pending A :=
  start (k r) (completes c w).

(** The whole handler, with [net] telling how each call settles. *)
Fixpoint run {A : Type} (net : Call -> Reply) (p : Prog A) (w : World)
  : World * Outcome A :=
  match p with
  | Ret a => (w, Fulfilled a)
  | Throw e => (w, Rejected e)
  | Get k => run net (k w) w
  | Upd f k => run net k (f w)
  | Await c k => run net (k (net c)) (completes c (emit (Dispatched c) w))
  end.

(** The calls a run dispatches, oldest first. *)
Fixpoint calls (t : list Effect) : list Call :=
  match t with
  | [] => []
  | Dispatched c :: t' => c :: calls t'
  | ConsoleError _ _ :: t' => calls t'
  end.

(** ** Sample inputs *)

(** A stand-in for the JSON codec of the browser, enough to run the
    handlers on concrete inputs. *)
Definition sample_stringify (u : UserRecord) : string :=
  "user:" ++ username u.

Definition sample_parse (s : string) : JSError + option UserRecord :=
  if String.prefix "user:" s
  then inr (Some (mkUserRecord (String.substring 5 (String.length s - 5) s)))
  else if String.eqb s "null"
       then inr None
       else inl (mkJSError "SyntaxError" None).

Definition sample_dataset : Dataset := mkDataset "d1" [["Pump"; "4.2"]].

Definition sample_user : UserRecord := mkUserRecord "alice".

Definition not_found : JSError :=
  mkJSError "Request failed with status code 404" (Some (mkHttpResponse 404)).

Definition server_error : JSError :=
  mkJSError "Request failed with status code 500" (Some (mkHttpResponse 500)).

Definition net_resolves (data : option Dataset) : Call -> Reply :=
  fun _ => Resolve data.

Definition net_rejects (err : JSError) : Call -> Reply :=
  fun _ => Reject err.

(** The page at its first render, with an empty store. *)
Definition fresh_world : World := mkWorld initial_state ∅ [].

(** The first render in a browser where a session was saved. *)
Definition session_world : World :=
  mkWorld initial_state
          (<["user" := "user:alice"]> (<["authToken" := "tok1"]> ∅)) [].

(** A logged-in page showing a dataset. *)
Definition dataset_world : World :=
  mkWorld {| currentDataset := Some sample_dataset; loading := false;
             error := None; isAuthenticated := true;
             user := Some sample_user; activeTab := summary |}
          (<["user" := "user:alice"]> (<["authToken" := "tok1"]> ∅)) [].

(** The same page with the banner up. *)
Definition banner_world : World :=
  mkWorld (with_error (Some "Failed to download PDF") (state dataset_world))
          (localStorage dataset_world) [].

(** The first render on the login tab. *)
Definition login_tab_world : World :=
  mkWorld (with_activeTab login initial_state) ∅ [].

(** The first render in a browser whose saved user text is damaged. *)
Definition corrupt_world : World :=
  mkWorld initial_state
          (<["user" := "{oops"]> (<["authToken" := "tok1"]> ∅)) [].

(** ** The handlers of [App] *)

Section Controller.

(** [JSON.stringify] on a user object and [JSON.parse] on a stored
    text: the parse returns a value, which may be [null], or throws. *)
Variable JSON_stringify : UserRecord -> string.
Variable JSON_parse : string -> JSError + option UserRecord.

(** [JSON.parse] throws a SyntaxError on the empty text. *)
Hypothesis JSON_parse_empty : forall v, JSON_parse "" <> inr v.

Definition loadLatestDataset : Prog unit :=
  try_catch_finally
    (setLoading true ;;
     data <- await getLatestDataset ;;
     setCurrentDataset data ;;
     setError None)
    (fun err =>
       if status_is_not_404 err
       then console_error "Error loading dataset:" err
       else Ret tt)
    (setLoading false).

(** The effect run at mount.  [loadLatestDataset()] is the last
    statement and is not awaited: what follows its [await] runs when
    the reply arrives, as it does here.  When [JSON.parse] throws, the
    effect ends with that error; React then unmounts the tree, so the
    state cells the model holds after such a throw are never
    rendered. *)
Definition mount : Prog unit :=
  token <- localStorage_getItem "authToken" ;;
  savedUser <- localStorage_getItem "user" ;;
  (if truthy token && truthy savedUser
   then setIsAuthenticated true ;;
        match JSON_parse (ToString savedUser) with
        | inr v => setUser v
        | inl e => Throw e
        end
   else Ret tt) ;;
  loadLatestDataset.

Definition handleUploadSuccess (data : UploadResponse) : Prog unit :=
  setCurrentDataset (dataset data) ;;
  setActiveTab summary ;;
  setError None.

Definition handleSelectDataset (d : option Dataset) : Prog unit :=
  setCurrentDataset d ;;
  setActiveTab summary.

Definition handleLoginSuccess (userData : UserRecord) (token : string)
  : Prog unit :=
  localStorage_setItem "authToken" token ;;
  localStorage_setItem "user" (JSON_stringify userData) ;;
  setIsAuthenticated true ;;
  setUser (Some userData).

Definition handleLogout : Prog unit :=
  await logout ;;
  setIsAuthenticated false ;;
  setUser None.

Definition handleDownloadPDF : Prog unit :=
  cur <- read currentDataset ;;
  match cur with
  | Some d =>
      try_catch
        (await (downloadPDF (id d)) ;; Ret tt)
        (fun _ => setError (Some "Failed to download PDF"))
  | None => Ret tt
  end.

(** The inline handlers of the buttons. *)
Definition requestTab (t : Tab) : Prog unit := setActiveTab t.

Definition dismissError : Prog unit := setError None.

(** The events the component reacts to. *)
Inductive Event : Type :=
| Mount
| UploadSucceeded (data : UploadResponse)
| SelectDataset (d : option Dataset)
| LoginSucceeded (userData : UserRecord) (token : string)
| LogoutRequested
| RequestTab (t : Tab)
| RequestDownload
| DismissError.

Definition handle (ev : Event) : Prog unit :=
  match ev with
  | Mount => mount
  | UploadSucceeded data => handleUploadSuccess data
  | SelectDataset d => handleSelectDataset d
  | LoginSucceeded userData token => handleLoginSuccess userData token
  | LogoutRequested => handleLogout
  | RequestTab t => requestTab t
  | RequestDownload => handleDownloadPDF
  | DismissError => dismissError
  end.

(** The contract of spec section 4.3 for one handler on one world:
    when the handler dispatches a call, [loading] is true at the
    dispatch and false once the handler has finished. *)
Definition loading_contract (net : Call -> Reply) (p : Prog unit) (w : World)
  : Prop :=
  match start p w with
  | (w1, Suspended _ _) =>
      loading (state w1) = true /\
      loading (state (fst (run net p w))) = false
  | (_, Settled _) => True
  end.

(** The part of [mount] before [loadLatestDataset()]: the session is
    restored, or [JSON.parse] throws after [setIsAuthenticated(true)],
    or nothing happens. *)
Definition restored (w : World) : World * Outcome unit :=
  if truthy (localStorage w !! "authToken") && truthy (localStorage w !! "user")
  then match JSON_parse (ToString (localStorage w !! "user")) with
       | inr v =>
           (mkWorld (with_user v (with_isAuthenticated true (state w)))
                    (localStorage w) (trace w), Fulfilled tt)
       | inl e =>
           (mkWorld (with_isAuthenticated true (state w))
                    (localStorage w) (trace w), Rejected e)
       end
  else (w, Fulfilled tt).

(** ** What [App] renders *)

(** [a === b] on tab names. *)
Definition Tab_eqb (a b : Tab) : bool :=
  match a, b with
  | upload, upload | summary, summary | table, table
  | charts, charts | history, history | login, login => true
  | _, _ => false
  end.

(** The right of the header: the welcome line with the logout button,
    or the login button.  The welcome line shows [user?.username]. *)
Inductive HeaderActions : Type :=
| user_info (name : option string)
| btn_login.

(** A button of the navigation bar. *)
Record NavButton : Type := mkNavButton {
  nav_tab : Tab;
  nav_active : bool;
  nav_disabled : bool
}.

(** The child components of the tab content with the props they get;
    the summary section carries the download button. *)
Inductive Panel : Type :=
| Login_panel
| FileUpload_panel
| Summary_section (d : Dataset)
| DataTable_panel (data : list (list string))
| Charts_panel (d : Dataset)
| History_panel.

Record View : Type := mkView {
  header_actions : HeaderActions;
  app_nav : list NavButton;
  error_banner : option string;
  loading_indicator : bool;
  tab_content : list Panel
}.

(** [cond && <X/>] *)
Definition when {A : Type} (cond : bool) (x : A) : list A :=
  if cond then [x] else [].

(** [cond && currentDataset && <X of currentDataset/>] *)
Definition when_dataset {A : Type} (cond : bool) (cur : option Dataset)
    (x : Dataset -> A) : list A :=
  match cur with
  | Some d => when cond (x d)
  | None => []
  end.

(** [!v] on a cell that holds an object or [null]. *)
Definition missing {A : Type} (v : option A) : bool :=
  match v with
  | Some _ => false
  | None => true
  end.

(** The JSX that [App] returns, as a function of the state cells. *)
Definition render (s : AppState) : View :=
  {| header_actions :=
       if isAuthenticated s
       then user_info (match user s with
                       | Some u => Some (username u)
                       | None => None
                       end)
       else btn_login;
     app_nav :=
       [ mkNavButton upload (Tab_eqb (activeTab s) upload) false;
         mkNavButton summary (Tab_eqb (activeTab s) summary)
                     (missing (currentDataset s));
         mkNavButton table (Tab_eqb (activeTab s) table)
                     (missing (currentDataset s));
         mkNavButton charts (Tab_eqb (activeTab s) charts)
                     (missing (currentDataset s));
         mkNavButton history (Tab_eqb (activeTab s) history) false ];
     error_banner := if truthy (error s) then error s else None;
     loading_indicator := loading s;
     tab_content :=
       (when (Tab_eqb (activeTab s) login && negb (isAuthenticated s))
             Login_panel
        ++ when (Tab_eqb (activeTab s) upload) FileUpload_panel
        ++ when_dataset (Tab_eqb (activeTab s) summary) (currentDataset s)
                        Summary_section
        ++ when_dataset (Tab_eqb (activeTab s) table) (currentDataset s)
                        (fun d => DataTable_panel (raw_data_parsed d))
        ++ when_dataset (Tab_eqb (activeTab s) charts) (currentDataset s)
                        Charts_panel
        ++ when (Tab_eqb (activeTab s) history) History_panel)%list |}.

(** The controls with an [onClick]. *)
Inductive Click : Type :=
| click_logout
| click_login
| click_nav (t : Tab)
| click_dismiss
| click_download.

(** The handler behind each control. *)
Definition click_event (c : Click) : Event :=
  match c with
  | click_logout => LogoutRequested
  | click_login => RequestTab login
  | click_nav t => RequestTab t
  | click_dismiss => DismissError
  | click_download => RequestDownload
  end.

Definition is_Summary_section (p : Panel) : bool :=
  match p with
  | Summary_section _ => true
  | _ => false
  end.

(** A click reaches its handler when the control is rendered and not
    disabled. *)
Definition enabled (v : View) (c : Click) : bool :=
  match c with
  | click_logout =>
      match header_actions v with user_info _ => true | btn_login => false end
  | click_login =>
      match header_actions v with user_info _ => false | btn_login => true end
  | click_nav t =>
      existsb (fun b => Tab_eqb (nav_tab b) t && negb (nav_disabled b))
              (app_nav v)
  | click_dismiss =>
      match error_banner v with Some _ => true | None => false end
  | click_download => existsb is_Summary_section (tab_content v)
  end.

(** ** The page over time *)

(** The page between two turns of the event loop: the world and the
    handlers suspended on a call, oldest first. *)
Record Page : Type := mkPage {
  world : World;
  pending : list (Call * (Reply -> Prog unit))
}.

Definition settle (rest : list (Call * (Reply -> Prog unit)))
    (r : World * Pending unit) : Page :=
  match r with
  | (w', Settled _) => mkPage w' rest
  | (w', Suspended c k) => mkPage w' (rest ++ [(c, k)])
  end.

(** A handler is invoked and runs to its first [await] or to its end. *)
Definition begin (p : Prog unit) (pg : Page) : Page :=
  settle (pending pg) (start p (world pg)).

(** The reply to the [i]-th pending call arrives and its handler goes
    on; with no such call nothing happens. *)
Definition deliver (i : nat) (r : Reply) (pg : Page) : Page :=
  match pending pg !! i with
  | Some (c, k) =>
      settle (delete i (pending pg)) (resume c k r (world pg))
  | None => pg
  end.

Inductive Action : Type :=
| Fire (ev : Event)
| Press (c : Click)
| Arrive (i : nat) (r : Reply).

Definition act (a : Action) (pg : Page) : Page :=
  match a with
  | Fire ev => begin (handle ev) pg
  | Press c =>
      if enabled (render (state (world pg))) c
      then begin (handle (click_event c)) pg
      else pg
  | Arrive i r => deliver i r pg
  end.

Fixpoint play (l : list Action) (pg : Page) : Page :=
  match l with
  | [] => pg
  | a :: l' => play l' (act a pg)
  end.

(** The page at the first render, over a given store. *)
Definition first_render (ls : gmap string string) : Page :=
  mkPage (mkWorld initial_state ls []) [].

(** A reload of the page: the state cells start over and the store
    stays. *)
Definition reload (w : World) : World :=
  mkWorld initial_state (localStorage w) (trace w).

(** A suspended handler that waits for [getLatestDataset]. *)
Definition is_load (ck : Call * (Reply -> Prog unit)) : bool :=
  match fst ck with
  | getLatestDataset => true
  | logout | downloadPDF _ => false
  end.

Definition load_in_flight (pg : Page) : bool :=
  existsb is_load (pending pg).

(** What a suspended handler does to the spinner when it goes on: it
    finishes without a second call; a load turns the spinner off, the
    others leave it. *)
Definition finishes_spinner (ck : Call * (Reply -> Prog unit)) : Prop :=
  forall r w,
    match start (snd ck r) w with
    | (w', Settled _) =>
        loading (state w') = if is_load ck then false else loading (state w)
    | (_, Suspended _ _) => False
    end.

Definition spinner_has_load (pg : Page) : Prop :=
  (loading (state (world pg)) = true -> load_in_flight pg = true) /\
  Forall finishes_spinner (pending pg).

(** [keeps_from ok I p w]: started on [w], the program [p] has [I]
    whenever it gives the turn back (at each [await] and at its end),
    given that [I] holds when a reply allowed by [ok] arrives. *)
Fixpoint keeps_from {A : Type} (ok : Call -> Reply -> Prop)
    (I : World -> Prop) (p : Prog A) (w : World) : Prop :=
  match p with
  | Ret _ => I w
  | Throw _ => I w
  | Get k => keeps_from ok I (k w) w
  | Upd f k => keeps_from ok I k (f w)
  | Await c k =>
      I (emit (Dispatched c) w) /\
      forall r w2, ok c r -> I w2 ->
        keeps_from ok I (k r) (completes c w2)
  end.

(** The properties of a world that the theorems follow over time. *)
Definition error_known (w : World) : Prop :=
  error (state w) = None \/
  error (state w) = Some "Failed to download PDF".

Definition session_consistent (s : AppState) : Prop :=
  isAuthenticated s = true <-> is_Some (user s).

Definition stored_user_parses (ls : gmap string string) : Prop :=
  forall text, ls !! "user" = Some text -> text <> "" ->
    exists u, JSON_parse text = inr (Some u).

(** The session cells agree and the stored user can be read back. *)
Definition session_sound (w : World) : Prop :=
  session_consistent (state w) /\ stored_user_parses (localStorage w).

Definition data_tab (t : Tab) : bool :=
  match t with
  | summary | table | charts => true
  | upload | history | login => false
  end.



(** [P] holds of every action of [l] on the page it is played on. *)
Fixpoint along (P : Page -> Action -> Prop) (l : list Action) (pg : Page)
  : Prop :=
  match l with
  | [] => True
  | a :: l' => P pg a /\ along P l' (act a pg)
  end.

(** The suspended handlers keep [I] when they go on. *)
Definition pending_keep (ok : Call -> Reply -> Prop) (I : World -> Prop)
    (l : list (Call * (Reply -> Prog unit))) : Prop :=
  Forall (fun ck => forall r w, ok (fst ck) r -> I w ->
                      keeps_from ok I (snd ck r) (completes (fst ck) w)) l.

Definition page_keeps (ok : Call -> Reply -> Prop) (I : World -> Prop)
    (pg : Page) : Prop :=
  I (world pg) /\ pending_keep ok I (pending pg).


(** ** The monad *)

Lemma run_bind {A B : Type} net (p : Prog A) (f : A -> Prog B) w :
  run net (bind p f) w =
  match run net p w with
  | (w', Fulfilled a) => run net (f a) w'
  | (w', Rejected e) => (w', Rejected e)
  end.
Proof. revert w; induction p; intros w; cbn; auto. Qed.

Lemma run_try_catch {A : Type} net (p : Prog A) h w :
  run net (try_catch p h) w =
  match run net p w with
  | (w', Fulfilled a) => (w', Fulfilled a)
  | (w', Rejected e) => run net (h e) w'
  end.
Proof. revert w; induction p; intros w; cbn; auto. Qed.

(** The cleanup of a [finally] runs on both exits of the body. *)
Lemma run_try_finally {A : Type} net (p : Prog A) cleanup w :
  run net (try_finally p cleanup) w =
  match run net cleanup (fst (run net p w)) with
  | (w', Fulfilled _) => (w', snd (run net p w))
  | (w', Rejected e) => (w', Rejected e)
  end.
Proof.
  revert w; induction p; intros w; cbn; auto;
    rewrite run_bind; destruct (run net cleanup w) as [w' [[]|e']]; reflexivity.
Qed.

(** A run is the synchronous part followed by the rest, once the
    pending call has completed. *)
Lemma run_start {A : Type} net (p : Prog A) w :
  run net p w =
  match start p w with
  | (w', Settled o) => (w', o)
  | (w', Suspended c k) => run net (k (net c)) (completes c w')
  end.
Proof. revert w; induction p; intros w; cbn; auto. Qed.

Lemma calls_app t1 t2 : calls (t1 ++ t2) = (calls t1 ++ calls t2)%list.
Proof.
  induction t1 as [|[c|msg err] t1 IH]; cbn; [reflexivity| |exact IH].
  now rewrite IH.
Qed.

(** Whatever the body and the handler do, a [finally] that calls
    [setLoading(false)] ends with [loading] false. *)
Lemma finally_setLoading_false {A : Type} net (body : Prog A) h w :
  loading
    (state (fst (run net (try_catch_finally body h (setLoading false)) w)))
  = false.
Proof.
  unfold try_catch_finally. rewrite run_try_finally. reflexivity.
Qed.

(** ** Loading the latest dataset *)

(** What [loadLatestDataset] leaves behind, by the reply to its call. *)
Lemma run_loadLatestDataset net w :
  run net loadLatestDataset w =
  match net getLatestDataset with
  | Resolve data =>
      (mkWorld (with_loading false (with_error None
                 (with_currentDataset data (with_loading true (state w)))))
               (localStorage w)
               (trace w ++ [Dispatched getLatestDataset]),
       Fulfilled tt)
  | Reject err =>
      (mkWorld (with_loading false (with_loading true (state w)))
               (localStorage w)
               (if status_is_not_404 err
                then (trace w ++ [Dispatched getLatestDataset])
                       ++ [ConsoleError "Error loading dataset:" err]
                else trace w ++ [Dispatched getLatestDataset]),
       Fulfilled tt)
  end.
Proof.
  cbn. destruct (net getLatestDataset) as [data|err]; cbn.
  - reflexivity.
  - destruct (status_is_not_404 err); reflexivity.
Qed.

(** Its synchronous part ends at the dispatch, with [loading] set. *)
Lemma start_loadLatestDataset w :
  exists k,
    start loadLatestDataset w =
    (mkWorld (with_loading true (state w)) (localStorage w)
             (trace w ++ [Dispatched getLatestDataset]),
     Suspended getLatestDataset k).
Proof. eexists. reflexivity. Qed.

Lemma run_mount net w :
  run net mount w =
  match restored w with
  | (w1, Fulfilled _) => run net loadLatestDataset w1
  | (w1, Rejected e) => (w1, Rejected e)
  end.
Proof.
  unfold mount, restored, localStorage_getItem. cbn [bind run].
  destruct (truthy (localStorage w !! "authToken")
            && truthy (localStorage w !! "user")).
  - destruct (JSON_parse (ToString (localStorage w !! "user"))) as [e|v];
      [reflexivity|].
    cbn [bind run setIsAuthenticated setUser set_state]. reflexivity.
  - cbn [bind run]. destruct w; reflexivity.
Qed.

Lemma start_mount w :
  match restored w with
  | (w1, Fulfilled _) => start mount w = start loadLatestDataset w1
  | (w1, Rejected e) => start mount w = (w1, Settled (Rejected e))
  end.
Proof.
  unfold mount, restored, localStorage_getItem. cbn [bind start].
  destruct (truthy (localStorage w !! "authToken")
            && truthy (localStorage w !! "user")).
  - destruct (JSON_parse (ToString (localStorage w !! "user"))) as [e|v];
      reflexivity.
  - destruct w; reflexivity.
Qed.

(** What [handleDownloadPDF] leaves behind, by the current dataset and
    the reply to its call. *)
Lemma run_handleDownloadPDF net w :
  run net handleDownloadPDF w =
  match currentDataset (state w) with
  | None => (w, Fulfilled tt)
  | Some d =>
      (mkWorld
         match net (downloadPDF (id d)) with
         | Resolve _ => state w
         | Reject _ => with_error (Some "Failed to download PDF") (state w)
         end
         (localStorage w)
         (trace w ++ [Dispatched (downloadPDF (id d))]),
       Fulfilled tt)
  end.
Proof.
  unfold handleDownloadPDF, read. cbn [bind run].
  destruct (currentDataset (state w)) as [d|]; [|reflexivity].
  rewrite run_try_catch. cbn.
  destruct (net (downloadPDF (id d))); reflexivity.
Qed.

(** C1, as the code has it: [loadLatestDataset], alone or from
    [mount], has [loading] true when its call is dispatched and false
    when it has finished, whatever the reply; [handleLogout] and
    [handleDownloadPDF] dispatch their call and finish with [loading]
    as they found it. *)
Theorem loading_set_only_by_loadLatestDataset net w :
  (exists w1 k,
      start loadLatestDataset w = (w1, Suspended getLatestDataset k) /\
      loading (state w1) = true /\
      loading (state (fst (run net loadLatestDataset w))) = false) /\
  loading_contract net mount w /\
  (exists w1 k,
      start handleLogout w = (w1, Suspended logout k) /\
      loading (state w1) = loading (state w) /\
      loading (state (fst (run net handleLogout w))) = loading (state w)) /\
  (forall d, currentDataset (state w) = Some d ->
    exists w1 k,
      start handleDownloadPDF w = (w1, Suspended (downloadPDF (id d)) k) /\
      loading (state w1) = loading (state w) /\
      loading (state (fst (run net handleDownloadPDF w))) = loading (state w)).
Proof.
  repeat split.
  - destruct (start_loadLatestDataset w) as [k Hk].
    eexists _, k. split; [exact Hk|]. split; [reflexivity|].
    apply finally_setLoading_false.
  - unfold loading_contract. rewrite run_mount.
    pose proof (start_mount w) as Hs.
    destruct (restored w) as [w1 [[]|e]]; rewrite Hs.
    + destruct (start_loadLatestDataset w1) as [k ->].
      split; [reflexivity|]. apply finally_setLoading_false.
    + exact I.
  - eexists _, _. split; [reflexivity|]. split; [reflexivity|].
    cbn. destruct (net logout); reflexivity.
  - intros d Hd. rewrite run_handleDownloadPDF, Hd.
    unfold handleDownloadPDF, read. cbn. rewrite Hd. cbn.
    eexists _, _. split; [reflexivity|]. split; [reflexivity|].
    destruct (net (downloadPDF (id d))); reflexivity.
Qed.

(** C3: when the call of [loadLatestDataset] is rejected, with status
    404 or with anything else, and no error and no dataset were there
    before, the handler finishes normally and there is still no error
    and no dataset; the same holds when it is run from [mount]. *)
Theorem load_failure_surfaces_nothing net w err :
  net getLatestDataset = Reject err ->
  error (state w) = None ->
  currentDataset (state w) = None ->
  snd (run net loadLatestDataset w) = Fulfilled tt /\
  error (state (fst (run net loadLatestDataset w))) = None /\
  currentDataset (state (fst (run net loadLatestDataset w))) = None /\
  error (state (fst (run net mount w))) = None /\
  currentDataset (state (fst (run net mount w))) = None.
Proof.
  intros Hnet Herr Hds.
  assert (Hload : forall w0,
             run net loadLatestDataset w0 =
             (mkWorld (with_loading false (with_loading true (state w0)))
                      (localStorage w0)
                      (if status_is_not_404 err
                       then (trace w0 ++ [Dispatched getLatestDataset])
                              ++ [ConsoleError "Error loading dataset:" err]
                       else trace w0 ++ [Dispatched getLatestDataset]),
              Fulfilled tt)).
  { intros w0. rewrite run_loadLatestDataset, Hnet. reflexivity. }
  rewrite run_mount, Hload. cbn [fst snd state].
  assert (Hmount :
            error (state (fst (restored w))) = None /\
            currentDataset (state (fst (restored w))) = None).
  { unfold restored. destruct (truthy _ && truthy _); [|auto].
    destruct (JSON_parse (ToString _)); auto. }
  destruct Hmount as [Hme Hmd].
  destruct (restored w) as [w1 [[]|e]]; [rewrite Hload|]; auto.
Qed.

(** C4: after [handleUploadSuccess] on a response that carries the
    dataset [d], the current dataset is [d], no error is shown and the
    active tab is [summary]. *)
Theorem upload_success_shows_summary net w d :
  snd (run net (handleUploadSuccess (mkUploadResponse (Some d))) w)
    = Fulfilled tt /\
  currentDataset
    (state (fst (run net (handleUploadSuccess (mkUploadResponse (Some d))) w)))
    = Some d /\
  error
    (state (fst (run net (handleUploadSuccess (mkUploadResponse (Some d))) w)))
    = None /\
  activeTab
    (state (fst (run net (handleUploadSuccess (mkUploadResponse (Some d))) w)))
    = summary.
Proof. repeat split. Qed.

(** C8: with no current dataset, [handleDownloadPDF] returns at once:
    it is never suspended, dispatches nothing, and leaves the state,
    the store and the trace as they were. *)
Theorem download_without_dataset_is_noop w :
  currentDataset (state w) = None ->
  start handleDownloadPDF w = (w, Settled (Fulfilled tt)) /\
  forall net, run net handleDownloadPDF w = (w, Fulfilled tt).
Proof.
  intros Hds. split.
  - unfold handleDownloadPDF, read. cbn. rewrite Hds. reflexivity.
  - intros net. rewrite run_handleDownloadPDF, Hds. reflexivity.
Qed.

(** ** The session *)

(** C2: the store after each event.  [handleLoginSuccess] writes the
    token and the serialized user, the [logout] call of
    [handleLogout] clears them, and every other event, whatever the
    replies, leaves the store as it was. *)
Theorem session_store_after_each_event net w ev :
  localStorage (fst (run net (handle ev) w)) =
  match ev with
  | LoginSucceeded userData token =>
      <["user" := JSON_stringify userData]>
        (<["authToken" := token]> (localStorage w))
  | LogoutRequested => delete "user" (delete "authToken" (localStorage w))
  | Mount | UploadSucceeded _ | SelectDataset _ | RequestTab _
  | RequestDownload | DismissError => localStorage w
  end.
Proof.
  destruct ev; cbn [handle]; try reflexivity.
  - rewrite run_mount. unfold restored.
    destruct (truthy _ && truthy _).
    + destruct (JSON_parse (ToString _)); [reflexivity|].
      rewrite run_loadLatestDataset.
      destruct (net getLatestDataset); reflexivity.
    + rewrite run_loadLatestDataset.
      destruct (net getLatestDataset); reflexivity.
  - cbn. destruct (net logout); reflexivity.
  - rewrite run_handleDownloadPDF.
    destruct (currentDataset (state w)); reflexivity.
Qed.

(** C6: [handleLoginSuccess] stores the token and the serialized user
    and marks the session authenticated with the given user; a
    [handleLogout] that follows, with its call resolved, marks it
    unauthenticated with no user. *)
Theorem login_then_logout net w userData token data :
  net logout = Resolve data ->
  let w1 := fst (run net (handleLoginSuccess userData token) w) in
  let w2 := fst (run net handleLogout w1) in
  snd (run net (handleLoginSuccess userData token) w) = Fulfilled tt /\
  localStorage w1 !! "authToken" = Some token /\
  localStorage w1 !! "user" = Some (JSON_stringify userData) /\
  isAuthenticated (state w1) = true /\
  user (state w1) = Some userData /\
  snd (run net handleLogout w1) = Fulfilled tt /\
  isAuthenticated (state w2) = false /\
  user (state w2) = None.
Proof.
  intros Hnet. cbn. rewrite Hnet. cbn.
  repeat split.
  - rewrite lookup_insert_ne by discriminate. apply lookup_insert_eq.
  - apply lookup_insert_eq.
Qed.

(** C7: when the store holds a token and a user text at mount, both
    as the code tests them (present and not the empty string), and
    the text parses to the user [u], the synchronous part of [mount]
    ends suspended on [getLatestDataset] with the session
    authenticated and [u] as the user. *)
Theorem mount_restores_session w token text u :
  localStorage w !! "authToken" = Some token ->
  token <> "" ->
  localStorage w !! "user" = Some text ->
  JSON_parse text = inr (Some u) ->
  exists w1 k,
    start mount w = (w1, Suspended getLatestDataset k) /\
    isAuthenticated (state w1) = true /\
    user (state w1) = Some u.
Proof.
  intros Htok Hne Husr Hparse.
  assert (Htext : text <> "").
  { intros ->. exact (JSON_parse_empty _ Hparse). }
  pose proof (start_mount w) as Hs. unfold restored in Hs.
  rewrite Htok, Husr in Hs. cbn [truthy ToString] in Hs.
  apply String.eqb_neq in Hne, Htext. rewrite Hne, Htext, Hparse in Hs.
  cbn [negb andb] in Hs. rewrite Hs.
  eexists _, _. split; [reflexivity|]. split; reflexivity.
Qed.

(** C9: when the [logout] call is rejected, [handleLogout] rejects
    with the same error and no state cell has changed: an
    authenticated session with its user stays so. *)
Theorem failed_logout_changes_nothing net w err u :
  net logout = Reject err ->
  isAuthenticated (state w) = true ->
  user (state w) = Some u ->
  snd (run net handleLogout w) = Rejected err /\
  state (fst (run net handleLogout w)) = state w /\
  isAuthenticated (state (fst (run net handleLogout w))) = true /\
  user (state (fst (run net handleLogout w))) = Some u.
Proof.
  intros Hnet Hauth Huser. cbn. rewrite Hnet. cbn. auto.
Qed.

(** ** The error banner *)

(** C5: with a dataset present and the [downloadPDF] call rejected,
    [handleDownloadPDF] finishes with the error cell holding exactly
    the fixed message and every other cell and the store as before,
    after the one dispatch; dismissing then puts the error cell back
    to [null] at once, with no suspension, nothing added to the trace
    and the other cells still as before. *)
Theorem failed_download_then_dismiss net w d err :
  currentDataset (state w) = Some d ->
  net (downloadPDF (id d)) = Reject err ->
  let w1 := fst (run net handleDownloadPDF w) in
  let w2 := fst (run net dismissError w1) in
  snd (run net handleDownloadPDF w) = Fulfilled tt /\
  error (state w1) = Some "Failed to download PDF" /\
  currentDataset (state w1) = currentDataset (state w) /\
  loading (state w1) = loading (state w) /\
  isAuthenticated (state w1) = isAuthenticated (state w) /\
  user (state w1) = user (state w) /\
  activeTab (state w1) = activeTab (state w) /\
  localStorage w1 = localStorage w /\
  trace w1 = (trace w ++ [Dispatched (downloadPDF (id d))])%list /\
  start dismissError w1 = (w2, Settled (Fulfilled tt)) /\
  error (state w2) = None /\
  currentDataset (state w2) = currentDataset (state w) /\
  loading (state w2) = loading (state w) /\
  isAuthenticated (state w2) = isAuthenticated (state w) /\
  user (state w2) = user (state w) /\
  activeTab (state w2) = activeTab (state w) /\
  localStorage w2 = localStorage w /\
  trace w2 = trace w1 /\
  calls (trace w2) = (calls (trace w) ++ [downloadPDF (id d)])%list.
Proof.
  intros Hds Hnet. cbv zeta.
  rewrite run_handleDownloadPDF, Hds, Hnet. cbn.
  repeat split; try exact Hds. apply calls_app.
Qed.

(** C10: a download whose call resolves leaves every state cell as it
    was, so the error cell after it is the error cell before it,
    shown or not; in particular a banner that was up stays up.  An
    event after which a shown error is gone is a dismissal, an upload
    success, or a mount whose [getLatestDataset] call resolved, and
    each of these three does clear the error. *)
Theorem error_cleared_only_by_three net w :
  (forall d data,
      currentDataset (state w) = Some d ->
      net (downloadPDF (id d)) = Resolve data ->
      error (state (fst (run net handleDownloadPDF w))) = error (state w) /\
      state (fst (run net handleDownloadPDF w)) = state w) /\
  (forall msg d data,
      error (state w) = Some msg ->
      currentDataset (state w) = Some d ->
      net (downloadPDF (id d)) = Resolve data ->
      error (state (fst (run net handleDownloadPDF w))) = Some msg) /\
  (forall msg ev,
      error (state w) = Some msg ->
      error (state (fst (run net (handle ev) w))) = None ->
      ev = DismissError \/
      (exists data, ev = UploadSucceeded data) \/
      (ev = Mount /\ exists data, net getLatestDataset = Resolve data)) /\
  error (state (fst (run net dismissError w))) = None /\
  (forall data,
      error (state (fst (run net (handleUploadSuccess data) w))) = None) /\
  (forall data,
      net getLatestDataset = Resolve data ->
      error (state (fst (run net loadLatestDataset w))) = None).
Proof.
  split; [|split; [|split; [|split; [|split]]]].
  - intros d data Hds Hnet. rewrite run_handleDownloadPDF, Hds, Hnet. auto.
  - intros msg d data Herr Hds Hnet.
    rewrite run_handleDownloadPDF, Hds, Hnet. exact Herr.
  - intros msg ev Herr Hgone. destruct ev; cbn [handle] in Hgone; eauto.
    + right; right. split; [reflexivity|].
      rewrite run_mount in Hgone. unfold restored in Hgone.
      destruct (net getLatestDataset) as [data|e] eqn:Hnet; [eauto|].
      exfalso.
      destruct (truthy _ && truthy _);
        [destruct (JSON_parse (ToString _))|];
        try rewrite run_loadLatestDataset, Hnet in Hgone;
        cbn in Hgone; congruence.
    + exfalso. cbn in Hgone. congruence.
    + exfalso. cbn in Hgone. congruence.
    + exfalso. cbn in Hgone. destruct (net logout); cbn in Hgone; congruence.
    + exfalso. cbn in Hgone. congruence.
    + exfalso. rewrite run_handleDownloadPDF in Hgone.
      destruct (currentDataset (state w)) as [d|]; cbn in Hgone;
        [destruct (net (downloadPDF (id d))); cbn in Hgone|]; congruence.
  - reflexivity.
  - reflexivity.
  - intros data Hnet. rewrite run_loadLatestDataset, Hnet. reflexivity.
Qed.

(** ** The view *)

Lemma Tab_eqb_eq a b : Tab_eqb a b = true <-> a = b.
Proof. destruct a, b; cbn; split; congruence. Qed.

(** X1: the tab content never holds two panels at once. *)
Theorem at_most_one_panel s : length (tab_content (render s)) <= 1.
Proof.
  unfold render; cbn [tab_content].
  destruct (activeTab s), (isAuthenticated s), (currentDataset s); cbn; lia.
Qed.

(** X2: the tab content is empty in exactly two cases: the login tab
    is active with the session authenticated, or one of the three data
    tabs is active with no current dataset. *)
Theorem blank_content_iff s :
  tab_content (render s) = [] <->
  (activeTab s = login /\ isAuthenticated s = true) \/
  (data_tab (activeTab s) = true /\ currentDataset s = None).
Proof.
  unfold render; cbn [tab_content].
  destruct (activeTab s), (isAuthenticated s), (currentDataset s); cbn;
    split; try discriminate; try tauto;
    intros [[? ?]|[? ?]]; discriminate.
Qed.

(** X3: a login that succeeds on the login tab removes the login form
    and puts nothing in its place: the handler leaves [activeTab] on
    [login], so the tab content is empty and no navigation button is
    active until the user presses one. *)
Theorem login_success_leaves_blank_content net w userData token :
  activeTab (state w) = login ->
  isAuthenticated (state w) = false ->
  tab_content (render (state w)) = [Login_panel] /\
  tab_content
    (render (state (fst (run net (handleLoginSuccess userData token) w))))
    = [] /\
  List.filter nav_active
    (app_nav
       (render (state (fst (run net (handleLoginSuccess userData token) w)))))
    = [].
Proof.
  intros Htab Hauth. cbn. rewrite Htab, Hauth. cbn.
  destruct (currentDataset (state w)); repeat split.
Qed.

(** X4: the download button is rendered only with a current dataset on
    the summary tab, so a press on it always dispatches [downloadPDF]
    with the id of the dataset on display: the guard of
    [handleDownloadPDF] never fails for a handler reached through the
    view. *)
Theorem download_button_dispatches w :
  enabled (render (state w)) click_download = true ->
  exists d k,
    currentDataset (state w) = Some d /\
    tab_content (render (state w)) = [Summary_section d] /\
    start handleDownloadPDF w
      = (emit (Dispatched (downloadPDF (id d))) w,
         Suspended (downloadPDF (id d)) k).
Proof.
  unfold handleDownloadPDF, read, render. cbn.
  destruct (activeTab (state w)), (isAuthenticated (state w)),
    (currentDataset (state w)) as [d|]; cbn; try discriminate;
    intros _; eexists d, _; repeat split.
Qed.

(** X5: the navigation bar marks the button of the active tab and no
    other; on the login tab, which has no button, none is marked. *)
Theorem nav_marks_active_tab s :
  map nav_tab (List.filter nav_active (app_nav (render s))) =
  if Tab_eqb (activeTab s) login then [] else [activeTab s].
Proof. destruct s as [? ? ? ? ? []]; reflexivity. Qed.

(** X6: a press on a navigation button goes through exactly when the
    button is [upload] or [history], or a data tab with a dataset
    present; there is no button for [login]. *)
Theorem nav_press_goes_through s t :
  enabled (render s) (click_nav t) = true <->
  t = upload \/ t = history \/
  (data_tab t = true /\ is_Some (currentDataset s)).
Proof.
  unfold render, enabled; cbn [app_nav existsb nav_tab nav_disabled].
  destruct t, (currentDataset s) as [d|]; cbn; split;
    try (intros; discriminate); try tauto; eauto 6;
    intros [?|[?|[? Hs]]]; try discriminate; try reflexivity;
    destruct Hs; discriminate.
Qed.

(** ** More on the handlers *)

(** X7: [loadLatestDataset] never rejects, whatever the reply: its
    promise is fulfilled, it dispatches exactly one call, and it leaves
    the session cells, the active tab and the store as they were. *)
Theorem loadLatestDataset_never_rejects net w :
  snd (run net loadLatestDataset w) = Fulfilled tt /\
  calls (trace (fst (run net loadLatestDataset w)))
    = (calls (trace w) ++ [getLatestDataset])%list /\
  isAuthenticated (state (fst (run net loadLatestDataset w)))
    = isAuthenticated (state w) /\
  user (state (fst (run net loadLatestDataset w))) = user (state w) /\
  activeTab (state (fst (run net loadLatestDataset w)))
    = activeTab (state w) /\
  localStorage (fst (run net loadLatestDataset w)) = localStorage w.
Proof.
  rewrite run_loadLatestDataset.
  destruct (net getLatestDataset) as [data|err]; cbn;
    [|destruct (status_is_not_404 err)];
    rewrite ?calls_app; cbn; rewrite ?app_nil_r; repeat split.
Qed.

(** X8: what a rejected load writes to the console.  A 404 writes
    nothing; any other status, and an error with no response at all
    (a network failure), writes one [console.error] with the error. *)
Theorem load_failure_console net w err :
  net getLatestDataset = Reject err ->
  trace (fst (run net loadLatestDataset w)) =
  match response err with
  | Some r =>
      if Z.eqb (status r) 404
      then (trace w ++ [Dispatched getLatestDataset])%list
      else (trace w ++ [Dispatched getLatestDataset;
                        ConsoleError "Error loading dataset:" err])%list
  | None =>
      (trace w ++ [Dispatched getLatestDataset;
                   ConsoleError "Error loading dataset:" err])%list
  end.
Proof.
  intros Hnet. rewrite run_loadLatestDataset, Hnet. cbn.
  unfold status_is_not_404.
  destruct (response err) as [r|]; [destruct (Z.eqb (status r) 404)|];
    cbn; rewrite <- ?app_assoc; reflexivity.
Qed.

(** X9: with the token or the user missing from the store, or stored
    as the empty string, [mount] restores nothing and is exactly
    [loadLatestDataset]. *)
Theorem mount_without_session w :
  truthy (localStorage w !! "authToken") = false \/
  truthy (localStorage w !! "user") = false ->
  start mount w = start loadLatestDataset w /\
  forall net, run net mount w = run net loadLatestDataset w.
Proof.
  intros Hmiss.
  assert (Hboth : truthy (localStorage w !! "authToken")
                  && truthy (localStorage w !! "user") = false).
  { destruct Hmiss as [-> | ->]; [reflexivity | apply andb_false_r]. }
  pose proof (start_mount w) as Hs. unfold restored in Hs.
  rewrite Hboth in Hs. split; [exact Hs|].
  intros net. rewrite run_mount. unfold restored. rewrite Hboth. reflexivity.
Qed.

(** X10: with a token and a user text in the store on which
    [JSON.parse] throws, the mount effect ends with the parse error
    in its synchronous part, before [loadLatestDataset()] is reached:
    no call is dispatched, nothing is written to the console and the
    store is untouched.  Nothing is said of the state cells, which
    React drops with the tree. *)
Theorem mount_with_corrupt_user net w token text e :
  localStorage w !! "authToken" = Some token ->
  token <> "" ->
  localStorage w !! "user" = Some text ->
  text <> "" ->
  JSON_parse text = inl e ->
  snd (start mount w) = Settled (Rejected e) /\
  snd (run net mount w) = Rejected e /\
  trace (fst (run net mount w)) = trace w /\
  calls (trace (fst (run net mount w))) = calls (trace w) /\
  localStorage (fst (run net mount w)) = localStorage w.
Proof.
  intros Htok Hne Husr Hne' Hparse.
  pose proof (start_mount w) as Hs. revert Hs.
  rewrite run_mount. unfold restored. rewrite Htok, Husr.
  cbn [truthy ToString].
  apply String.eqb_neq in Hne, Hne'. rewrite Hne, Hne', Hparse.
  cbn [negb andb]. intros ->. repeat split.
Qed.

(** X11: a login survives a reload.  When [JSON.parse] gives back the
    user that [JSON.stringify] wrote and the token is not empty, the
    mount of the reloaded page restores the session of
    [handleLoginSuccess]: authenticated, with the same user. *)
Theorem login_survives_reload net w userData token :
  JSON_parse (JSON_stringify userData) = inr (Some userData) ->
  token <> "" ->
  exists w1 k,
    start mount (reload (fst (run net (handleLoginSuccess userData token) w)))
      = (w1, Suspended getLatestDataset k) /\
    isAuthenticated (state w1) = true /\
    user (state w1) = Some userData.
Proof.
  intros Hround Hne.
  assert (Htext : JSON_stringify userData <> "").
  { intros Hempty. rewrite Hempty in Hround.
    exact (JSON_parse_empty _ Hround). }
  pose proof (start_mount
                (reload (fst (run net (handleLoginSuccess userData token) w))))
    as Hs.
  unfold restored in Hs. cbn [run handleLoginSuccess bind
    localStorage_setItem setIsAuthenticated setUser set_state fst reload
    localStorage] in Hs.
  rewrite lookup_insert_eq in Hs.
  rewrite lookup_insert_ne, lookup_insert_eq in Hs by discriminate.
  cbn [truthy ToString] in Hs.
  apply String.eqb_neq in Hne, Htext. rewrite Hne, Htext, Hround in Hs.
  cbn [negb andb] in Hs. cbn [run handleLoginSuccess bind
    localStorage_setItem setIsAuthenticated setUser set_state fst reload
    localStorage]. rewrite Hs.
  eexists _, _. split; [reflexivity|]. split; reflexivity.
Qed.

(** X12: choosing a dataset in the history shows it on the summary tab
    and, unlike an upload, leaves the error banner as it is: the two
    handlers differ in the error cell only. *)
Theorem select_keeps_error_banner net w d :
  state (fst (run net (handleSelectDataset (Some d)) w))
    = with_activeTab summary (with_currentDataset (Some d) (state w)) /\
  error (state (fst (run net (handleSelectDataset (Some d)) w)))
    = error (state w) /\
  state (fst (run net (handleUploadSuccess (mkUploadResponse (Some d))) w))
    = with_error None (state (fst (run net (handleSelectDataset (Some d)) w))) /\
  currentDataset (state (fst (run net (handleSelectDataset (Some d)) w)))
    = Some d /\
  activeTab (state (fst (run net (handleSelectDataset (Some d)) w)))
    = summary /\
  loading (state (fst (run net (handleSelectDataset (Some d)) w)))
    = loading (state w) /\
  isAuthenticated (state (fst (run net (handleSelectDataset (Some d)) w)))
    = isAuthenticated (state w) /\
  user (state (fst (run net (handleSelectDataset (Some d)) w)))
    = user (state w) /\
  error
    (state (fst (run net (handleUploadSuccess (mkUploadResponse (Some d))) w)))
    = None.
Proof. repeat split. Qed.

(** X13: no handler that runs to its end leaves the spinner on: if
    [loading] is false before an event it is false after it, whatever
    the replies. *)
Theorem spinner_off_after_every_event net w ev :
  loading (state w) = false ->
  loading (state (fst (run net (handle ev) w))) = false.
Proof.
  intros Hoff. destruct ev; cbn [handle]; try exact Hoff.
  - rewrite run_mount. unfold restored.
    destruct (truthy _ && truthy _);
      [destruct (JSON_parse (ToString _)); [exact Hoff|]|];
      apply finally_setLoading_false.
  - cbn. destruct (net logout); exact Hoff.
  - rewrite run_handleDownloadPDF.
    destruct (currentDataset (state w)) as [d|]; [|exact Hoff].
    cbn. destruct (net (downloadPDF (id d))); exact Hoff.
Qed.

(** ** The page over time *)

Lemma settle_keeps ok I (p : Prog unit) w rest :
  keeps_from ok I p w ->
  pending_keep ok I rest ->
  page_keeps ok I (settle rest (start p w)).
Proof.
  revert w. induction p as [a|e|k IH|f k IH|c k IH]; intros w Hp Hrest; cbn in *.
  - split; assumption.
  - split; assumption.
  - apply IH; assumption.
  - apply IH; assumption.
  - destruct Hp as [Hw Hk]. split; [exact Hw|].
    apply Forall_app. split; [exact Hrest|].
    apply Forall_cons. split; [|apply Forall_nil; exact Logic.I].
    exact Hk.
Qed.

Lemma begin_keeps ok I p pg :
  page_keeps ok I pg ->
  keeps_from ok I p (world pg) ->
  page_keeps ok I (begin p pg).
Proof. intros [_ Hrest] Hp. apply settle_keeps; assumption. Qed.

Lemma deliver_keeps ok I i r pg :
  page_keeps ok I pg ->
  (forall c k, pending pg !! i = Some (c, k) -> ok c r) ->
  page_keeps ok I (deliver i r pg).
Proof.
  intros [Hw Hrest] Hok. unfold deliver.
  destruct (pending pg !! i) as [[c k]|] eqn:Hi; [|split; assumption].
  unfold resume. apply settle_keeps.
  - unfold pending_keep in Hrest.
    rewrite Forall_lookup in Hrest.
    apply (Hrest i (c, k) Hi r (world pg)); [apply (Hok c k eq_refl)|exact Hw].
  - apply Forall_delete. exact Hrest.
Qed.

(** A property that every handler keeps, from the point where it is
    invoked, holds of the page after any sequence of actions. *)
Lemma play_keeps ok I (P : Page -> Action -> Prop) :
  (forall pg ev, I (world pg) -> P pg (Fire ev) ->
     keeps_from ok I (handle ev) (world pg)) ->
  (forall pg c, I (world pg) -> P pg (Press c) ->
     enabled (render (state (world pg))) c = true ->
     keeps_from ok I (handle (click_event c)) (world pg)) ->
  (forall pg i r c k, P pg (Arrive i r) -> pending pg !! i = Some (c, k) ->
     ok c r) ->
  forall l pg, page_keeps ok I pg -> along P l pg ->
    page_keeps ok I (play l pg).
Proof.
  intros Hfire Hpress Harrive l.
  induction l as [|a l IH]; intros pg Hpg Hl; cbn in *; [exact Hpg|].
  destruct Hl as [Ha Hl]. apply IH; [|exact Hl].
  destruct a as [ev|c|i r]; cbn.
  - apply begin_keeps; [exact Hpg|]. apply Hfire; [apply Hpg|exact Ha].
  - destruct (enabled (render (state (world pg))) c) eqn:Hen; [|exact Hpg].
    apply begin_keeps; [exact Hpg|]. apply Hpress; [apply Hpg|exact Ha|exact Hen].
  - apply deliver_keeps; [exact Hpg|]. intros c k Hi. exact (Harrive pg i r c k Ha Hi).
Qed.

Lemma along_True l pg : along (fun _ _ => True) l pg.
Proof. revert pg. induction l as [|a l IH]; intros pg; cbn; auto. Qed.

Lemma first_render_keeps ok I ls :
  I (mkWorld initial_state ls []) -> page_keeps ok I (first_render ls).
Proof. intros HI. split; [exact HI|apply Forall_nil; exact Logic.I]. Qed.

(** Every handler keeps the error cell within its two values. *)
Lemma handle_keeps_error_known ok ev w :
  error_known w -> keeps_from ok error_known (handle ev) w.
Proof.
  intros Hw. unfold error_known in *.
  destruct ev; cbn; auto.
  - destruct (truthy _ && truthy _);
      [destruct (JSON_parse (ToString _))|]; cbn; auto;
      (split; [exact Hw|]);
      intros [data|err] w2 _ Hw2; cbn; auto;
      destruct (status_is_not_404 err); cbn; exact Hw2.
  - split; [exact Hw|]. intros [data|err] w2 _ Hw2; cbn; exact Hw2.
  - destruct (currentDataset (state w)) as [d|]; cbn; [|exact Hw].
    split; [exact Hw|]. intros [data|err] w2 _ Hw2; cbn; auto.
Qed.

(** X14: the only error the page ever shows is the download failure.
    After any sequence of events, presses and replies, in any order,
    the error cell is [null] or the fixed message, and the banner
    shows exactly the error cell. *)
Theorem error_is_only_the_download_failure ls l :
  error_known (world (play l (first_render ls))) /\
  error_banner (render (state (world (play l (first_render ls)))))
    = error (state (world (play l (first_render ls)))).
Proof.
  assert (Hk : error_known (world (play l (first_render ls)))).
  { apply (play_keeps (fun _ _ => True) error_known (fun _ _ => True)).
    - intros pg ev Hw _. apply handle_keeps_error_known, Hw.
    - intros pg c Hw _ _. apply handle_keeps_error_known, Hw.
    - intros; exact I.
    - apply first_render_keeps. left; reflexivity.
    - apply along_True. }
  split; [exact Hk|].
  unfold render; cbn [error_banner].
  destruct Hk as [-> | ->]; reflexivity.
Qed.

Lemma stored_user_parses_cleared ls :
  stored_user_parses (delete "user" (delete "authToken" ls)).
Proof. intros text Htext. rewrite lookup_delete_eq in Htext. discriminate. Qed.

Lemma stored_user_parses_written ls userData token :
  JSON_parse (JSON_stringify userData) = inr (Some userData) ->
  stored_user_parses
    (<["user" := JSON_stringify userData]> (<["authToken" := token]> ls)).
Proof.
  intros Hround text Htext _. rewrite lookup_insert_eq in Htext.
  injection Htext as <-. eauto.
Qed.

Lemma handle_keeps_session_sound ok ev w :
  (forall u, JSON_parse (JSON_stringify u) = inr (Some u)) ->
  session_sound w -> keeps_from ok session_sound (handle ev) w.
Proof.
  intros Hround [Hs Hls]. unfold session_sound, session_consistent in *.
  destruct ev; cbn; auto.
  - destruct (truthy (localStorage w !! "authToken")); cbn.
    + destruct (localStorage w !! "user") as [text|] eqn:Husr; cbn.
      * destruct (String.eqb text "") eqn:Hne; cbn.
        -- split; [auto|]. intros [data|err] w2 _ [Hs2 Hls2]; cbn; auto.
           destruct (status_is_not_404 err); cbn; auto.
        -- apply String.eqb_neq in Hne.
           destruct (Hls text Husr Hne) as [u ->]. cbn.
           split; [split; [split; eauto|exact Hls]|].
           intros [data|err] w2 _ [Hs2 Hls2]; cbn; auto.
           destruct (status_is_not_404 err); cbn; auto.
      * split; [auto|]. intros [data|err] w2 _ [Hs2 Hls2]; cbn; auto.
        destruct (status_is_not_404 err); cbn; auto.
    + split; [auto|]. intros [data|err] w2 _ [Hs2 Hls2]; cbn; auto.
      destruct (status_is_not_404 err); cbn; auto.
  - split; [split; eauto|]. apply stored_user_parses_written, Hround.
  - split; [auto|]. intros [data|err] w2 _ [Hs2 Hls2]; cbn.
    + split; [|apply stored_user_parses_cleared].
      split; [discriminate|]. intros [u Hu]; discriminate.
    + split; [exact Hs2|apply stored_user_parses_cleared].
  - destruct (currentDataset (state w)) as [d|]; cbn; [|auto].
    split; [auto|]. intros [data|err] w2 _ [Hs2 Hls2]; cbn; auto.
Qed.

(** X15: the session cells agree at every moment, under three
    conditions: every login success hands over a user object (never
    [null]), [JSON.parse] gives back the user object that
    [JSON.stringify] wrote, and a non-empty user text found in the
    store at the first render parses, without a throw, to a user
    object and not to [null].  Then after any sequence of events,
    presses and replies the session is authenticated exactly when a
    user is present. *)
Theorem session_cells_agree ls l :
  (forall u, JSON_parse (JSON_stringify u) = inr (Some u)) ->
  stored_user_parses ls ->
  session_consistent (state (world (play l (first_render ls)))).
Proof.
  intros Hround Hls.
  apply (play_keeps (fun _ _ => True) session_sound (fun _ _ => True)).
  - intros pg ev Hw _. apply handle_keeps_session_sound; assumption.
  - intros pg c Hw _ _. apply handle_keeps_session_sound; assumption.
  - intros; exact I.
  - apply first_render_keeps. split; [|exact Hls].
    split; [discriminate|]. intros [u Hu]; discriminate.
  - apply along_True.
Qed.



(** X17: the reply to the load of [mount] applies to whatever the page
    has become.  Whatever world [w2] the reply finds, a resolved reply
    replaces the current dataset by its payload, clears the error and
    the spinner and keeps the rest, so a dataset uploaded or selected
    while the load was in flight is overwritten; a rejected reply
    changes the spinner only. *)
Theorem late_load_reply_overwrites w w1 c k :
  start mount w = (w1, Suspended c k) ->
  c = getLatestDataset /\
  (forall w2 data,
      resume c k (Resolve data) w2 =
      (mkWorld (with_loading false (with_error None
                  (with_currentDataset data (state w2))))
               (localStorage w2) (trace w2),
       Settled (Fulfilled tt))) /\
  (forall w2 err,
      snd (resume c k (Reject err) w2) = Settled (Fulfilled tt) /\
      state (fst (resume c k (Reject err) w2))
        = with_loading false (state w2)) /\
  (forall w2 data,
      currentDataset (state (fst (resume c k (Resolve data) w2))) = data /\
      error (state (fst (resume c k (Resolve data) w2))) = None /\
      loading (state (fst (resume c k (Resolve data) w2))) = false /\
      isAuthenticated (state (fst (resume c k (Resolve data) w2)))
        = isAuthenticated (state w2) /\
      user (state (fst (resume c k (Resolve data) w2))) = user (state w2) /\
      activeTab (state (fst (resume c k (Resolve data) w2)))
        = activeTab (state w2)) /\
  (forall w2 err,
      loading (state (fst (resume c k (Reject err) w2))) = false /\
      currentDataset (state (fst (resume c k (Reject err) w2)))
        = currentDataset (state w2) /\
      error (state (fst (resume c k (Reject err) w2))) = error (state w2) /\
      activeTab (state (fst (resume c k (Reject err) w2)))
        = activeTab (state w2)).
Proof.
  intros Hstart. pose proof (start_mount w) as Hs.
  assert (Hload : exists w0, start mount w = start loadLatestDataset w0).
  { destruct (restored w) as [w0 [[]|e]]; [eauto|].
    rewrite Hs in Hstart. discriminate. }
  destruct Hload as [w0 Hload]. rewrite Hload in Hstart.
  cbn in Hstart. injection Hstart as _ <- <-.
  split; [reflexivity|]. split; [|split; [|split]].
  - intros w2 data. reflexivity.
  - intros w2 err. unfold resume. cbn.
    destruct (status_is_not_404 err); split; reflexivity.
  - intros w2 data. repeat split.
  - intros w2 err. unfold resume. cbn.
    destruct (status_is_not_404 err); repeat split.
Qed.

Lemma existsb_delete {A : Type} (f : A -> bool) (l : list A) i x :
  l !! i = Some x -> f x = false -> existsb f (delete i l) = existsb f l.
Proof.
  revert i. induction l as [|y l IH]; intros [|i] Hi Hx;
    try discriminate.
  - injection Hi as ->. cbn. rewrite Hx. reflexivity.
  - change (existsb f (y :: delete i l) = existsb f (y :: l)).
    cbn. rewrite (IH i Hi Hx). reflexivity.
Qed.

(** The spinner across the synchronous part of each handler. *)
Lemma start_handle_spinner ev w :
  match start (handle ev) w with
  | (w', Settled _) => loading (state w') = loading (state w)
  | (w', Suspended c k) =>
      finishes_spinner (c, k) /\
      (is_load (c, k) = false -> loading (state w') = loading (state w))
  end.
Proof.
  destruct ev; cbn [handle]; try reflexivity.
  - pose proof (start_mount w) as Hs.
    assert (Hr : loading (state (fst (restored w))) = loading (state w)).
    { unfold restored. destruct (truthy _ && truthy _); [|reflexivity].
      destruct (JSON_parse (ToString _)); reflexivity. }
    destruct (restored w) as [w1 [[]|e]]; rewrite Hs; [|exact Hr].
    cbn. split; [|discriminate].
    intros [data|err] w0; cbn; [reflexivity|].
    destruct (status_is_not_404 err); reflexivity.
  - cbn. split; [|reflexivity]. intros [data|err] w0; reflexivity.
  - unfold handleDownloadPDF, read. cbn.
    destruct (currentDataset (state w)) as [d|]; cbn; [|reflexivity].
    split; [|reflexivity]. intros [data|err] w0; reflexivity.
Qed.

Lemma begin_spinner ev pg :
  spinner_has_load pg -> spinner_has_load (begin (handle ev) pg).
Proof.
  intros [Hspin Hrest]. unfold begin.
  pose proof (start_handle_spinner ev (world pg)) as Hs.
  destruct (start (handle ev) (world pg)) as [w' [o|c k]]; cbn.
  - split; [|exact Hrest]. cbn. rewrite Hs. exact Hspin.
  - destruct Hs as [Hk Hsame]. split.
    + unfold load_in_flight. cbn. rewrite existsb_app. cbn.
      intros Hon. destruct (is_load (c, k)) eqn:Hc;
        [apply orb_true_r|].
      rewrite (Hsame eq_refl) in Hon. apply Hspin in Hon.
      unfold load_in_flight in Hon. rewrite Hon. reflexivity.
    + cbn. apply Forall_app. split; [exact Hrest|].
      apply Forall_cons. split; [exact Hk|apply Forall_nil; exact I].
Qed.

Lemma deliver_spinner i r pg :
  spinner_has_load pg -> spinner_has_load (deliver i r pg).
Proof.
  intros [Hspin Hrest]. unfold deliver.
  destruct (pending pg !! i) as [[c k]|] eqn:Hi; [|split; assumption].
  pose proof Hrest as Hk. rewrite Forall_lookup in Hk.
  specialize (Hk i (c, k) Hi r (completes c (world pg))).
  unfold resume. cbn [snd] in Hk.
  destruct (start (k r) (completes c (world pg))) as [w' [o|c' k']];
    [|destruct Hk].
  cbn. split; [|apply Forall_delete; exact Hrest].
  unfold load_in_flight. cbn. rewrite Hk.
  destruct (is_load (c, k)) eqn:Hc; [discriminate|].
  intros Hon. rewrite (existsb_delete _ _ _ _ Hi Hc). exact (Hspin Hon).
Qed.

(** X18: the spinner is on only while a load is in flight.  After any
    sequence of events, presses and replies, [loading] is true only if
    a handler is suspended on [getLatestDataset]; with no such call
    pending the spinner is off. *)
Theorem spinner_only_while_loading ls l :
  loading (state (world (play l (first_render ls)))) = true ->
  load_in_flight (play l (first_render ls)) = true.
Proof.
  assert (Hinv : forall pg, spinner_has_load pg -> spinner_has_load (play l pg)).
  { induction l as [|a l IH]; intros pg Hpg; cbn; [exact Hpg|].
    apply IH. destruct a as [ev|c|i r]; cbn.
    - apply begin_spinner, Hpg.
    - destruct (enabled _ c); [apply begin_spinner, Hpg|exact Hpg].
    - apply deliver_spinner, Hpg. }
  apply Hinv. split; [discriminate|apply Forall_nil; exact I].
Qed.


(** X20: a logout changes the session cells and nothing else: the
    current dataset, the active tab, the error and the spinner stay,
    so outside the login tab the page goes on showing the same panel
    under the login button. *)
Theorem logout_keeps_the_dataset net w data :
  net logout = Resolve data ->
  state (fst (run net handleLogout w))
    = with_user None (with_isAuthenticated false (state w)) /\
  header_actions (render (state (fst (run net handleLogout w)))) = btn_login /\
  (activeTab (state w) <> login ->
   tab_content (render (state (fst (run net handleLogout w))))
     = tab_content (render (state w))) /\
  isAuthenticated (state (fst (run net handleLogout w))) = false /\
  user (state (fst (run net handleLogout w))) = None /\
  currentDataset (state (fst (run net handleLogout w)))
    = currentDataset (state w) /\
  activeTab (state (fst (run net handleLogout w))) = activeTab (state w) /\
  error (state (fst (run net handleLogout w))) = error (state w) /\
  loading (state (fst (run net handleLogout w))) = loading (state w).
Proof.
  intros Hnet. cbn. rewrite Hnet. cbn.
  split; [reflexivity|]. split; [reflexivity|]. split; [|repeat split].
  intros Htab. unfold render; cbn.
  destruct (activeTab (state w)); try reflexivity. destruct Htab; reflexivity.
Qed.

End Controller.

(** ** The theorems on sample inputs *)

(** C1 as the spec states it fails: on a page with [loading] false,
    [handleLogout] and [handleDownloadPDF] dispatch their call with
    [loading] still false. *)
Lemma logout_and_download_dispatch_without_loading :
  ~ loading_contract (net_resolves None) handleLogout dataset_world /\
  ~ loading_contract (net_resolves None) handleDownloadPDF dataset_world.
Proof. split; intros [Hset _]; cbn in Hset; discriminate. Qed.

(** A failed download on a page showing a dataset: [loading] is false
    at the dispatch and at the end. *)
Lemma loading_set_only_by_loadLatestDataset_witness :
  exists w1 k,
    start handleDownloadPDF dataset_world
      = (w1, Suspended (downloadPDF "d1") k) /\
    loading (state w1) = false /\
    loading (state (fst (run (net_rejects server_error) handleDownloadPDF
                             dataset_world))) = false.
Proof.
  apply (proj2 (proj2 (proj2
           (loading_set_only_by_loadLatestDataset
              sample_parse (net_rejects server_error) dataset_world)))
           sample_dataset).
  reflexivity.
Defined.

(** A first load rejected with 404, and one rejected with 500. *)
Lemma load_failure_surfaces_nothing_witness :
  error (state (fst (run (net_rejects not_found) loadLatestDataset
                         fresh_world))) = None /\
  error (state (fst (run (net_rejects server_error) loadLatestDataset
                         fresh_world))) = None.
Proof.
  split.
  - apply (load_failure_surfaces_nothing
             sample_parse (net_rejects not_found) fresh_world not_found);
      reflexivity.
  - apply (load_failure_surfaces_nothing
             sample_parse (net_rejects server_error) fresh_world server_error);
      reflexivity.
Defined.

(** A download request on the fresh page. *)
Lemma download_without_dataset_is_noop_witness :
  start handleDownloadPDF fresh_world = (fresh_world, Settled (Fulfilled tt)).
Proof. apply (download_without_dataset_is_noop fresh_world). reflexivity. Defined.

(** A login on the fresh page. *)
Lemma login_then_logout_witness :
  localStorage
    (fst (run (net_resolves None)
              (handleLoginSuccess sample_stringify sample_user "tok1")
              fresh_world)) !! "authToken" = Some "tok1".
Proof.
  apply (login_then_logout sample_stringify (net_resolves None) fresh_world
           sample_user "tok1" None).
  reflexivity.
Defined.

(** A mount in a browser where a session was saved. *)
Lemma mount_restores_session_witness :
  exists w1 k,
    start (mount sample_parse) session_world
      = (w1, Suspended getLatestDataset k) /\
    isAuthenticated (state w1) = true /\
    user (state w1) = Some sample_user.
Proof.
  apply (mount_restores_session sample_parse) with (token := "tok1")
                                                   (text := "user:alice").
  - intros v. discriminate.
  - reflexivity.
  - discriminate.
  - reflexivity.
  - reflexivity.
Defined.

(** A logout whose call is rejected with 500. *)
Lemma failed_logout_changes_nothing_witness :
  snd (run (net_rejects server_error) handleLogout dataset_world)
    = Rejected server_error.
Proof.
  apply (failed_logout_changes_nothing (net_rejects server_error)
           dataset_world server_error sample_user); reflexivity.
Defined.

(** A download rejected with 500 on a page showing a dataset. *)
Lemma failed_download_then_dismiss_witness :
  error (state (fst (run (net_rejects server_error) handleDownloadPDF
                         dataset_world)))
    = Some "Failed to download PDF".
Proof.
  apply (failed_download_then_dismiss (net_rejects server_error)
           dataset_world sample_dataset server_error); reflexivity.
Defined.

(** A successful download with the banner up. *)
Lemma error_cleared_only_by_three_witness :
  error (state (fst (run (net_resolves None) handleDownloadPDF banner_world)))
    = Some "Failed to download PDF".
Proof.
  apply (proj1 (proj2 (error_cleared_only_by_three
                         sample_stringify sample_parse (net_resolves None)
                         banner_world))
               "Failed to download PDF" sample_dataset None); reflexivity.
Defined.

(** ** The further theorems on sample inputs *)

Lemma substring_whole s : String.substring 0 (String.length s) s = s.
Proof. induction s as [|c s IH]; cbn; [reflexivity|]. now rewrite IH. Qed.

(** The sample codec reads back what it writes and rejects the empty
    text. *)
Lemma sample_roundtrip u : sample_parse (sample_stringify u) = inr (Some u).
Proof.
  destruct u as [name]. unfold sample_parse, sample_stringify. cbn [username].
  cbv [String.append]. cbn.
  assert (Hp : String.prefix "" name = true) by (destruct name; reflexivity).
  rewrite Hp, Nat.sub_0_r, substring_whole. reflexivity.
Qed.

Lemma sample_parse_empty v : sample_parse "" <> inr v.
Proof. discriminate. Qed.

(** A login that succeeds on the login tab of the fresh page. *)
Lemma login_success_leaves_blank_content_witness :
  tab_content
    (render (state (fst (run (net_resolves None)
                             (handleLoginSuccess sample_stringify sample_user
                                                 "tok1")
                             login_tab_world)))) = [].
Proof.
  apply (login_success_leaves_blank_content sample_stringify
           (net_resolves None) login_tab_world sample_user "tok1");
    reflexivity.
Defined.

(** The download button of a page showing a dataset. *)
Lemma download_button_dispatches_witness :
  exists d k,
    currentDataset (state dataset_world) = Some d /\
    tab_content (render (state dataset_world)) = [Summary_section d] /\
    start handleDownloadPDF dataset_world
      = (emit (Dispatched (downloadPDF (id d))) dataset_world,
         Suspended (downloadPDF (id d)) k).
Proof. apply (download_button_dispatches dataset_world). reflexivity. Defined.

(** A first load rejected with 500. *)
Lemma load_failure_console_witness :
  trace (fst (run (net_rejects server_error) loadLatestDataset fresh_world))
  = [Dispatched getLatestDataset;
     ConsoleError "Error loading dataset:" server_error].
Proof.
  apply (load_failure_console (net_rejects server_error) fresh_world
           server_error).
  reflexivity.
Defined.

(** A mount over an empty store. *)
Lemma mount_without_session_witness :
  start (mount sample_parse) fresh_world = start loadLatestDataset fresh_world.
Proof.
  apply (mount_without_session sample_parse fresh_world).
  left. reflexivity.
Defined.

(** A mount over a damaged user text. *)
Lemma mount_with_corrupt_user_witness :
  snd (run (net_resolves None) (mount sample_parse) corrupt_world)
    = Rejected (mkJSError "SyntaxError" None) /\
  calls (trace (fst (run (net_resolves None) (mount sample_parse)
                         corrupt_world))) = [].
Proof.
  assert (H := mount_with_corrupt_user sample_parse (net_resolves None)
                 corrupt_world "tok1" "{oops"
                 (mkJSError "SyntaxError" None)).
  split; apply H; (reflexivity || discriminate).
Defined.

(** A login on the fresh page, then a reload. *)
Lemma login_survives_reload_witness :
  exists w1 k,
    start (mount sample_parse)
          (reload (fst (run (net_resolves None)
                            (handleLoginSuccess sample_stringify sample_user
                                                "tok1")
                            fresh_world)))
      = (w1, Suspended getLatestDataset k) /\
    isAuthenticated (state w1) = true /\
    user (state w1) = Some sample_user.
Proof.
  apply (login_survives_reload sample_stringify sample_parse
           sample_parse_empty (net_resolves None) fresh_world sample_user
           "tok1").
  - reflexivity.
  - discriminate.
Defined.

(** A mount whose load is rejected, on the fresh page. *)
Lemma spinner_off_after_every_event_witness :
  loading
    (state (fst (run (net_rejects server_error)
                     (handle sample_stringify sample_parse Mount)
                     fresh_world))) = false.
Proof.
  apply (spinner_off_after_every_event sample_stringify sample_parse
           (net_rejects server_error) fresh_world Mount).
  reflexivity.
Defined.

(** A mount over a saved session, a logout pressed while the load is in
    flight, and the two replies in the opposite order. *)
Lemma session_cells_agree_witness :
  session_consistent
    (state (world (play sample_stringify sample_parse
                        [Fire Mount; Press click_logout;
                         Arrive 1 (Resolve None);
                         Arrive 0 (Resolve (Some sample_dataset))]
                        (first_render (localStorage session_world))))).
Proof.
  apply (session_cells_agree sample_stringify sample_parse).
  - exact sample_roundtrip.
  - intros text Htext _. cbn in Htext.
    rewrite lookup_insert_eq in Htext. injection Htext as <-.
    exists sample_user. reflexivity.
Defined.


(** The load of a mount on the fresh page. *)
Lemma late_load_reply_overwrites_witness :
  exists w1 c k,
    start (mount sample_parse) fresh_world = (w1, Suspended c k) /\
    c = getLatestDataset.
Proof.
  eexists _, _, _. split; [reflexivity|].
  eapply (late_load_reply_overwrites sample_parse fresh_world).
  reflexivity.
Defined.

(** The fresh page right after its mount. *)
Lemma spinner_only_while_loading_witness :
  load_in_flight (play sample_stringify sample_parse [Fire Mount]
                       (first_render ∅)) = true.
Proof.
  apply (spinner_only_while_loading sample_stringify sample_parse).
  reflexivity.
Defined.

(** A logout on a page showing a dataset. *)
Lemma logout_keeps_the_dataset_witness :
  tab_content
    (render (state (fst (run (net_resolves None) handleLogout dataset_world))))
  = tab_content (render (state dataset_world)).
Proof.
  apply (logout_keeps_the_dataset (net_resolves None) dataset_world None);
    [reflexivity|discriminate].
Defined.
